(** * generate_hard_docs.py : a shallow embedding of src/util/generate_hard_docs.py

    The script is a straight-line sequence of file-system operations:

<<
    if os.path.exists(dir):
        for filename in os.listdir(dir):
            os.remove(os.path.join(dir, filename))
        os.rmdir(dir)
    os.mkdir(dir)
    with open(docs_path, 'r') as f: docs_content = f.read()
    for i in range(51):
        o = os.path.join(dir, f"{i}.txt")
        content = f"{i}\n{docs_content}"
        with open(o, 'w') as f: f.write(content)
    print("Files created successfully.")
>>

    The two paths it touches, [dir = 'hard_docs'] and [docs_path = 'docs.txt'],
    are fixed and relative to the working directory, so the file system is
    modelled by the two slots at those paths, the write permission of the
    working directory, the free space of the disk (in bytes) and a log of the
    system calls performed (the printed lines are the [EPrint] events).

    Python's exceptions keep the effects already performed, so the monad
    below is a state monad whose errors carry the state reached.

    Text-mode I/O is modelled as on POSIX: reading with [open(.., 'r')]
    applies universal-newline translation ("\r\n" and a lone "\r" become
    "\n"); writing with [open(.., 'w')] writes "\n" unchanged.  Characters
    stand for the decoded text (the content is taken to be valid in the
    locale encoding). *)

From Stdlib Require Import String Ascii List Arith Lia Bool.
From Stdlib Require Import DecimalString.
Import ListNotations.
Open Scope string_scope.

(** ** Data model *)

(** A directory entry: a regular file with its content, or a directory
    with its write permission and its entries. *)
#[warnings="-register-all"]
Inductive entry : Type :=
| EFile (data : string)
| EDir (writable : bool) (children : list (string * entry)).

(** The system calls performed, in order. *)
Inductive event : Type :=
| ERemove (filename : string)
| ERmdir
| EMkdir
| ERead (data : string)
| EOpenW (filename : string)
| EWrite (filename : string) (data : string)
| EPrint (line : string).

Record fs : Type := mkfs {
  hard_docs : option entry;      (** the entry at path [dir] *)
  docs_txt : option entry;       (** the entry at path [docs_path] *)
  cwd_writable : bool;
  free : nat;
  log : list event
}.

(** The exceptions the script can raise (none is caught). *)
Inductive error : Type :=
| FileNotFoundError
| FileExistsError
| IsADirectoryError
| NotADirectoryError
| PermissionError
| DirectoryNotEmpty      (** OSError ENOTEMPTY *)
| NoSpaceLeft.           (** OSError ENOSPC *)

Inductive result (A : Type) : Type :=
| Ok (a : A)
| Err (e : error).
Arguments Ok {A} a.
Arguments Err {A} e.

(** ** The error/state monad *)

Definition M (A : Type) : Type := fs -> fs * result A.

Definition ret {A} (a : A) : M A := fun s => (s, Ok a).
Definition raise {A} (e : error) : M A := fun s => (s, Err e).
Definition bind {A B} (m : M A) (k : A -> M B) : M B :=
  fun s => match m s with
           | (s', Ok a) => k a s'
           | (s', Err e) => (s', Err e)
           end.

Notation "x <- m ;; k" := (bind m (fun x => k))
  (at level 61, m at next level, right associativity).
Notation "m ;;; k" := (bind m (fun _ => k))
  (at level 61, right associativity).

(** ** Association lists for directory contents *)

Fixpoint lookup (n : string) (l : list (string * entry)) : option entry :=
  match l with
  | [] => None
  | (m, e) :: r => if String.eqb n m then Some e else lookup n r
  end.

Fixpoint remove_key (n : string) (l : list (string * entry)) : list (string * entry) :=
  match l with
  | [] => []
  | (m, e) :: r => if String.eqb n m then r else (m, e) :: remove_key n r
  end.

(** Replaces the entry named [n], or appends it when absent. *)
Fixpoint set_key (n : string) (e : entry) (l : list (string * entry)) : list (string * entry) :=
  match l with
  | [] => [(n, e)]
  | (m, e') :: r => if String.eqb n m then (n, e) :: r else (m, e') :: set_key n e r
  end.

Definition file_size (e : entry) : nat :=
  match e with EFile d => String.length d | EDir _ _ => 0 end.

(** ** State updates *)

Definition set_hard (h : option entry) (s : fs) : fs :=
  mkfs h (docs_txt s) (cwd_writable s) (free s) (log s).
Definition set_free (n : nat) (s : fs) : fs :=
  mkfs (hard_docs s) (docs_txt s) (cwd_writable s) n (log s).
Definition emit (ev : event) (s : fs) : fs :=
  mkfs (hard_docs s) (docs_txt s) (cwd_writable s) (free s) ((log s ++ [ev])%list).

(** ** Python text mode *)

Definition CR : ascii := "013"%char.
Definition LF : ascii := "010"%char.

(** Universal-newline translation of [open(.., 'r').read()]. *)
Fixpoint universal_newlines (s : string) : string :=
  match s with
  | EmptyString => EmptyString
  | String c r =>
      if Ascii.eqb c CR then
        String LF (match r with
                   | String c' r' => if Ascii.eqb c' LF then universal_newlines r'
                                     else universal_newlines r
                   | EmptyString => EmptyString
                   end)
      else String c (universal_newlines r)
  end.

(** [str(i)] *)
Definition str (i : nat) : string := NilZero.string_of_uint (Nat.to_uint i).

(** ** The system calls, on the two fixed paths *)

(** [os.path.exists(dir)] *)
Definition path_exists : M bool :=
  fun s => (s, Ok (match hard_docs s with Some _ => true | None => false end)).

(** [os.listdir(dir)] *)
Definition listdir : M (list string) :=
  fun s => match hard_docs s with
           | None => (s, Err FileNotFoundError)
           | Some (EFile _) => (s, Err NotADirectoryError)
           | Some (EDir _ ch) => (s, Ok (map fst ch))
           end.

(** [os.remove(os.path.join(dir, filename))]: unlinks a file; a directory
    entry is refused, and so is a removal from a read-only directory. *)
Definition os_remove (filename : string) : M unit :=
  fun s => match hard_docs s with
           | None => (s, Err FileNotFoundError)
           | Some (EFile _) => (s, Err NotADirectoryError)
           | Some (EDir w ch) =>
               match lookup filename ch with
               | None => (s, Err FileNotFoundError)
               | Some (EDir _ _) => (s, Err IsADirectoryError)
               | Some (EFile d) =>
                   if w then
                     (emit (ERemove filename)
                        (set_free (free s + String.length d)
                           (set_hard (Some (EDir w (remove_key filename ch))) s)), Ok tt)
                   else (s, Err PermissionError)
               end
           end.

(** [os.rmdir(dir)] *)
Definition os_rmdir : M unit :=
  fun s => match hard_docs s with
           | None => (s, Err FileNotFoundError)
           | Some (EFile _) => (s, Err NotADirectoryError)
           | Some (EDir _ ch) =>
               if negb (cwd_writable s) then (s, Err PermissionError)
               else match ch with
                    | [] => (emit ERmdir (set_hard None s), Ok tt)
                    | _ :: _ => (s, Err DirectoryNotEmpty)
                    end
           end.

(** [os.mkdir(dir)]: a fresh, empty, writable directory. *)
Definition os_mkdir : M unit :=
  fun s => match hard_docs s with
           | Some _ => (s, Err FileExistsError)
           | None =>
               if cwd_writable s then (emit EMkdir (set_hard (Some (EDir true [])) s), Ok tt)
               else (s, Err PermissionError)
           end.

(** [with open(docs_path, 'r') as f: docs_content = f.read()] *)
Definition read_docs : M string :=
  fun s => match docs_txt s with
           | None => (s, Err FileNotFoundError)
           | Some (EDir _ _) => (s, Err IsADirectoryError)
           | Some (EFile d) =>
               let c := universal_newlines d in (emit (ERead c) s, Ok c)
           end.

(** [open(o, 'w')]: creates the file, or truncates an existing one. *)
Definition open_w (filename : string) : M unit :=
  fun s => match hard_docs s with
           | None => (s, Err FileNotFoundError)
           | Some (EFile _) => (s, Err NotADirectoryError)
           | Some (EDir w ch) =>
               match lookup filename ch with
               | Some (EDir _ _) => (s, Err IsADirectoryError)
               | Some (EFile d) =>
                   (emit (EOpenW filename)
                      (set_free (free s + String.length d)
                         (set_hard (Some (EDir w (set_key filename (EFile "") ch))) s)), Ok tt)
               | None =>
                   if w then
                     (emit (EOpenW filename)
                        (set_hard (Some (EDir w (set_key filename (EFile "") ch))) s), Ok tt)
                   else (s, Err PermissionError)
               end
           end.

(** [f.write(content)] and the close at the end of the [with] block, on
    the file just opened: when the disk fills up, the prefix that fitted
    stays in the file and ENOSPC is raised. *)
Definition write_close (filename : string) (content : string) : M unit :=
  fun s => match hard_docs s with
           | Some (EDir w ch) =>
               if Nat.leb (String.length content) (free s) then
                 (emit (EWrite filename content)
                    (set_free (free s - String.length content)
                       (set_hard (Some (EDir w (set_key filename (EFile content) ch))) s)), Ok tt)
               else
                 (set_free 0
                    (set_hard (Some (EDir w (set_key filename
                                                (EFile (substring 0 (free s) content)) ch))) s),
                  Err NoSpaceLeft)
           | _ => (s, Err FileNotFoundError)
           end.

(** [print(line)] *)
Definition print (line : string) : M unit := fun s => (emit (EPrint line) s, Ok tt).

(** ** The script *)

Definition success_message : string := "Files created successfully.".

Definition file_name (i : nat) : string := str i ++ ".txt".

Definition file_content (i : nat) (docs_content : string) : string :=
  str i ++ String LF docs_content.

Fixpoint remove_all (filenames : list string) : M unit :=
  match filenames with
  | [] => ret tt
  | filename :: rest => os_remove filename ;;; remove_all rest
  end.

(** Lines 6-10: the directory reset. *)
Definition reset : M unit :=
  ex <- path_exists ;;
  if ex then (filenames <- listdir ;; remove_all filenames ;;; os_rmdir)
  else ret tt.

(** Lines 16-21: the generation loop, over the indices still to do. *)
Fixpoint gen_loop (docs_content : string) (indices : list nat) : M unit :=
  match indices with
  | [] => ret tt
  | i :: rest =>
      let o := file_name i in
      let content := file_content i docs_content in
      open_w o ;;; write_close o content ;;; gen_loop docs_content rest
  end.

Definition count : nat := 51.

Definition main : M unit :=
  reset ;;;
  os_mkdir ;;;
  docs_content <- read_docs ;;
  gen_loop docs_content (seq 0 count) ;;;
  print success_message.

(** ** The process: [sys.argv] and [os.environ] are available to the
    script, which never reads them. *)

Record process : Type := mkprocess {
  argv : list string;
  environ : list (string * string);
  fs_of : fs
}.

Definition run (p : process) : fs * result unit := main (fs_of p).

(** ** Observations *)

(** The lines printed so far (standard output). *)
Definition stdout (s : fs) : list string :=
  flat_map (fun ev => match ev with EPrint l => [l] | _ => [] end) (log s).

Definition is_print (ev : event) : bool :=
  match ev with EPrint _ => true | _ => false end.

Definition is_file (e : entry) : bool :=
  match e with EFile _ => true | EDir _ _ => false end.

(** Whether [os.remove] accepts an entry of a directory with write
    permission [w]. *)
Definition removable (w : bool) (e : entry) : bool := w && is_file e.

Definition size_sum (l : list (string * entry)) : nat :=
  fold_right (fun p acc => file_size (snd p) + acc) 0 l.

(** The output files for the indices [l], and their total size. *)
Definition files (docs_content : string) (l : list nat) : list (string * entry) :=
  map (fun i => (file_name i, EFile (file_content i docs_content))) l.

Definition bytes (docs_content : string) (l : list nat) : nat :=
  fold_right (fun i acc => String.length (file_content i docs_content) + acc) 0 l.

(** The events of a completed generation loop over [l]. *)
Definition gen_events (docs_content : string) (l : list nat) : list event :=
  flat_map (fun i => [EOpenW (file_name i); EWrite (file_name i) (file_content i docs_content)]) l.

Definition remove_events (l : list (string * entry)) : list event :=
  map (fun p => ERemove (fst p)) l.

Fixpoint nodupb (l : list string) : bool :=
  match l with
  | [] => true
  | x :: r => negb (existsb (String.eqb x) r) && nodupb r
  end.

Fixpoint has_cr (s : string) : bool :=
  match s with
  | EmptyString => false
  | String c r => Ascii.eqb c CR || has_cr r
  end.

(** Whether a directory holds a file for each of the indices 0..50. *)
Definition complete_set (h : option entry) : bool :=
  match h with
  | Some (EDir _ ch) =>
      forallb (fun i => match lookup (file_name i) ch with
                        | Some (EFile _) => true
                        | _ => false
                        end) (seq 0 count)
  | _ => false
  end.

(** ** Concrete file systems *)

Definition hello_world : string := "Hello" ++ String LF "World".

(** No [hard_docs] yet, [docs.txt] holding [docs], [space] free bytes. *)
Definition fs_fresh (docs : string) (space : nat) : fs :=
  mkfs None (Some (EFile docs)) true space [].

(** [hard_docs] holding a stale file. *)
Definition fs_stale (docs : string) : fs :=
  mkfs (Some (EDir true [("stale.txt", EFile "old")])) (Some (EFile docs)) true 2000 [].

(** [hard_docs] holding a stale file, [docs.txt] missing. *)
Definition fs_no_docs : fs :=
  mkfs (Some (EDir true [("stale.txt", EFile "old")])) None true 2000 [].

(** [hard_docs] holding a subdirectory and a file. *)
Definition fs_subdir (docs : option entry) : fs :=
  mkfs (Some (EDir true [("stale.txt", EFile "old"); ("sub", EDir true [])])) docs true 2000 [].

(** [hard_docs] holding a subdirectory listed first, then a complete
    earlier output; [docs.txt] missing. *)
Definition fs_subdir_complete : fs :=
  mkfs (Some (EDir true (("sub", EDir true []) :: files "old" (seq 0 count)))) None true 2000 [].

(** What the reset needs to complete: [hard_docs] absent, or a directory
    whose entries [os.remove] all accepts, inside a writable working
    directory. *)
Definition reset_ok_pre (s : fs) : bool :=
  match hard_docs s with
  | None => true
  | Some (EFile _) => false
  | Some (EDir w ch) => forallb (fun p => removable w (snd p)) ch && cwd_writable s
  end.

(** The bytes the reset gives back, and the calls it makes. *)
Definition reclaimed (s : fs) : nat :=
  match hard_docs s with Some (EDir _ ch) => size_sum ch | _ => 0 end.

Definition reset_events (s : fs) : list event :=
  match hard_docs s with
  | Some (EDir _ ch) => (remove_events ch ++ [ERmdir])%list
  | _ => []
  end.

(** A step that leaves [docs.txt] and the permission of the working
    directory as they are. *)
Definition keeps {A} (m : M A) : Prop :=
  forall s s' r, m s = (s', r) -> docs_txt s' = docs_txt s /\ cwd_writable s' = cwd_writable s.

(** The effects a step may have: it leaves [docs_txt] and the permission
    of the working directory alone, and only appends events other than
    printing to the log. *)
Definition frame {A} (m : M A) : Prop :=
  forall s s' r, m s = (s', r) ->
  docs_txt s' = docs_txt s /\ cwd_writable s' = cwd_writable s /\
  exists evs, log s' = (log s ++ evs)%list /\ forallb (fun ev => negb (is_print ev)) evs = true.

(** ** Basic lemmas *)

Open Scope list_scope.

Lemma nodupb_NoDup (l : list string) : nodupb l = true -> NoDup l.
Proof.
  induction l as [|x r IH]; simpl; intros H; [constructor|].
  apply andb_prop in H as [H1 H2]. constructor; [|auto].
  intros Hin. apply negb_true_iff in H1.
  assert (existsb (String.eqb x) r = true) by
    (apply existsb_exists; exists x; split; [exact Hin | apply String.eqb_refl]).
  congruence.
Qed.

Lemma names_nodup : NoDup (map file_name (seq 0 count)).
Proof. apply nodupb_NoDup. vm_compute. reflexivity. Qed.

Lemma lookup_notin (n : string) (l : list (string * entry)) :
  ~ In n (map fst l) -> lookup n l = None.
Proof.
  induction l as [|[m e] r IH]; simpl; intros H; [reflexivity|].
  destruct (String.eqb_spec n m); [subst; tauto | auto].
Qed.

Lemma set_key_notin (n : string) (e : entry) (l : list (string * entry)) :
  ~ In n (map fst l) -> set_key n e l = l ++ [(n, e)].
Proof.
  induction l as [|[m e'] r IH]; simpl; intros H; [reflexivity|].
  destruct (String.eqb_spec n m); [subst; tauto|]. rewrite IH; auto.
Qed.

Lemma set_key_last (n : string) (e e' : entry) (l : list (string * entry)) :
  ~ In n (map fst l) -> set_key n e (l ++ [(n, e')]) = l ++ [(n, e)].
Proof.
  induction l as [|[m e0] r IH]; simpl; intros H.
  - rewrite String.eqb_refl. reflexivity.
  - destruct (String.eqb_spec n m); [subst; tauto|]. rewrite IH; auto.
Qed.

Lemma bind_inv {A B} (m : M A) (k : A -> M B) s s' r :
  bind m k s = (s', r) ->
  (exists s1 a, m s = (s1, Ok a) /\ k a s1 = (s', r)) \/
  (exists e, m s = (s', Err e) /\ r = Err e).
Proof.
  unfold bind. destruct (m s) as [s1 [a|e]]; intros H.
  - left. eauto.
  - right. inversion H; subst. eauto.
Qed.

Lemma bind_ok {A B} (m : M A) (k : A -> M B) s s1 a :
  m s = (s1, Ok a) -> bind m k s = k a s1.
Proof. unfold bind. intros ->. reflexivity. Qed.

Lemma bind_err {A B} (m : M A) (k : A -> M B) s s1 e :
  m s = (s1, Err e) -> bind m k s = (s1, Err e).
Proof. unfold bind. intros ->. reflexivity. Qed.

Lemma nodup_app_cons_notin (pre : list string) (x : string) (l : list string) :
  NoDup (pre ++ x :: l) -> ~ In x pre /\ NoDup ((pre ++ [x]) ++ l).
Proof.
  intros H. split.
  - intros Hin. apply (NoDup_remove_2 _ _ _ H). apply in_or_app. left. exact Hin.
  - rewrite <- app_assoc. exact H.
Qed.

Lemma substring_prefix (n : nat) (c : string) :
  String.prefix (substring 0 n c) c = true.
Proof.
  revert n. induction c as [|a c IH]; intros [|n]; simpl; try reflexivity.
  destruct (ascii_dec a a) as [_|]; [apply IH | congruence].
Qed.

Lemma substring_length (n : nat) (c : string) :
  n < String.length c -> String.length (substring 0 n c) = n.
Proof.
  revert n. induction c as [|a c IH]; intros [|n]; simpl; intros H; try lia.
  f_equal. apply IH. lia.
Qed.

Lemma map_fst_files (C : string) (l : list nat) :
  map fst (files C l) = map file_name l.
Proof. unfold files. rewrite map_map. reflexivity. Qed.

Lemma files_app (C : string) (l1 l2 : list nat) :
  files C (l1 ++ l2) = files C l1 ++ files C l2.
Proof. unfold files. apply map_app. Qed.

Lemma gen_events_app (C : string) (l1 l2 : list nat) :
  gen_events C (l1 ++ l2) = gen_events C l1 ++ gen_events C l2.
Proof. unfold gen_events. apply flat_map_app. Qed.

Lemma bind_assoc {A B D} (m : M A) (k : A -> M B) (k' : B -> M D) s :
  bind (bind m k) k' s = bind m (fun a => bind (k a) k') s.
Proof. unfold bind. destruct (m s) as [s1 [a|e]]; reflexivity. Qed.

(** One iteration of the generation loop when the name is fresh. *)
Lemma gen_step (C : string) (i : nat) (pre : list (string * entry)) (s : fs) :
  hard_docs s = Some (EDir true pre) ->
  ~ In (file_name i) (map fst pre) ->
  (open_w (file_name i) ;;; write_close (file_name i) (file_content i C)) s =
  if Nat.leb (String.length (file_content i C)) (free s) then
    (mkfs (Some (EDir true (pre ++ [(file_name i, EFile (file_content i C))])))
          (docs_txt s) (cwd_writable s) (free s - String.length (file_content i C))
          (log s ++ [EOpenW (file_name i); EWrite (file_name i) (file_content i C)]), Ok tt)
  else
    (mkfs (Some (EDir true (pre ++ [(file_name i,
                                     EFile (substring 0 (free s) (file_content i C)))])))
          (docs_txt s) (cwd_writable s) 0 (log s ++ [EOpenW (file_name i)]), Err NoSpaceLeft).
Proof.
  intros Hh Hn. unfold bind, open_w. rewrite Hh, (lookup_notin _ _ Hn).
  rewrite (set_key_notin _ _ _ Hn). unfold write_close, emit, set_hard, set_free. simpl.

  destruct (Nat.leb _ _); simpl; rewrite (set_key_last _ _ _ _ Hn); try rewrite <- app_assoc; reflexivity.
Qed.

(** The generation loop over fresh names [l], started in a writable
    directory holding [pre]: it either writes every file, or stops with
    ENOSPC at some index [k], leaving the files before [k] and the prefix
    of file [k] that fitted. *)
Lemma gen_loop_cases (C : string) (l : list nat) :
  forall pre s s' r,
  hard_docs s = Some (EDir true pre) ->
  NoDup (map fst pre ++ map file_name l) ->
  gen_loop C l s = (s', r) ->
  (r = Ok tt /\ bytes C l <= free s /\
   s' = mkfs (Some (EDir true (pre ++ files C l))) (docs_txt s) (cwd_writable s)
             (free s - bytes C l) (log s ++ gen_events C l)) \/
  (exists l1 k l2, l = l1 ++ k :: l2 /\ r = Err NoSpaceLeft /\
   bytes C l1 <= free s /\ free s - bytes C l1 < String.length (file_content k C) /\
   s' = mkfs (Some (EDir true (pre ++ files C l1 ++
                               [(file_name k, EFile (substring 0 (free s - bytes C l1)
                                                                (file_content k C)))])))
             (docs_txt s) (cwd_writable s) 0 (log s ++ gen_events C l1 ++ [EOpenW (file_name k)])).
Proof.
  induction l as [|i rest IH]; intros pre s s' r Hh Hnd Hrun.
  - left. simpl in Hrun. unfold ret in Hrun. inversion Hrun; subst.
    split; [reflexivity|]. split; [simpl; lia|].
    destruct s' as [h d c f lg]; simpl in *. rewrite Hh, !app_nil_r, Nat.sub_0_r. reflexivity.
  - simpl map in Hnd. apply nodup_app_cons_notin in Hnd as [Hn Hnd].
    cbn [gen_loop] in Hrun. rewrite <- bind_assoc in Hrun.
    unfold bind at 1 in Hrun. rewrite (gen_step C i pre s Hh Hn) in Hrun.
    destruct (Nat.leb (String.length (file_content i C)) (free s)) eqn:Hle.
    + apply Nat.leb_le in Hle.
      set (pre' := pre ++ [(file_name i, EFile (file_content i C))]) in Hrun.
      assert (Hnd' : NoDup (map fst pre' ++ map file_name rest))
        by (unfold pre'; rewrite map_app; exact Hnd).
      destruct (IH pre' _ s' r (eq_refl : hard_docs (mkfs _ _ _ _ _) = _) Hnd' Hrun) as [(-> & Hb & ->) | (l1 & k & l2 & -> & -> & Hb & Hlt & ->)];
        simpl in *.
      * left. split; [reflexivity|]. split; [lia|]. unfold pre'.
        f_equal; [rewrite <- app_assoc; reflexivity | lia | rewrite <- app_assoc; reflexivity].
      * right. exists (i :: l1), k, l2. split; [reflexivity|]. split; [reflexivity|].
        simpl. split; [lia|]. split; [lia|]. unfold pre'.
        replace (free s - (String.length (file_content i C) + bytes C l1))
          with (free s - String.length (file_content i C) - bytes C l1) by lia.
        f_equal; rewrite <- !app_assoc; reflexivity.
    + apply Nat.leb_gt in Hle. inversion Hrun; subst. right.
      exists [], i, rest. simpl. rewrite Nat.sub_0_r.
      repeat split; try reflexivity; lia.
Qed.

(** ** The directory reset *)

Lemma remove_all_files (L : list (string * entry)) :
  forall s,
  hard_docs s = Some (EDir true L) ->
  forallb (fun p => is_file (snd p)) L = true ->
  remove_all (map fst L) s =
  (mkfs (Some (EDir true [])) (docs_txt s) (cwd_writable s) (free s + size_sum L)
        (log s ++ remove_events L), Ok tt).
Proof.
  induction L as [|[n e] L IH]; intros s Hh Hf; simpl in *.
  - unfold ret. destruct s as [h d c f lg]; simpl in *; subst.
    rewrite Nat.add_0_r, app_nil_r. reflexivity.
  - apply andb_prop in Hf as [He Hf]. destruct e as [dt|]; [|discriminate].
    unfold bind at 1, os_remove. rewrite Hh. simpl. rewrite !String.eqb_refl.
    rewrite IH by reflexivity || exact Hf. simpl.
    rewrite <- app_assoc, Nat.add_assoc. reflexivity.
Qed.

Lemma remove_all_ok_inv (L : list (string * entry)) :
  forall s w s',
  hard_docs s = Some (EDir w L) ->
  remove_all (map fst L) s = (s', Ok tt) ->
  forallb (fun p => removable w (snd p)) L = true /\
  s' = mkfs (Some (EDir w [])) (docs_txt s) (cwd_writable s) (free s + size_sum L)
            (log s ++ remove_events L).
Proof.
  induction L as [|[n e] L IH]; intros s w s' Hh Hrun; simpl in *.
  - unfold ret in Hrun. inversion Hrun; subst. split; [reflexivity|].
    destruct s' as [h d c f lg]; simpl in *; subst. rewrite Nat.add_0_r, app_nil_r. reflexivity.
  - unfold bind at 1, os_remove in Hrun. rewrite Hh in Hrun. simpl in Hrun.
    rewrite String.eqb_refl in Hrun.
    destruct e as [dt|]; [|discriminate]. destruct w; [|discriminate].
    destruct (IH _ true s' (eq_refl : hard_docs (emit _ (set_free _ (set_hard (Some (EDir true L)) s))) = _) Hrun) as [Hf ->]. simpl. split; [exact Hf|].
    rewrite <- app_assoc, Nat.add_assoc. reflexivity.
Qed.

Lemma remove_all_stuck (L : list (string * entry)) :
  forall s w n e,
  hard_docs s = Some (EDir w L) ->
  In (n, e) L -> removable w e = false ->
  exists s' err, remove_all (map fst L) s = (s', Err err).
Proof.
  induction L as [|[m e'] L IH]; intros s w n e Hh Hin Hr; simpl in *; [contradiction|].
  unfold bind at 1, os_remove. rewrite Hh. simpl. rewrite String.eqb_refl.
  destruct e' as [dt|w' ch'].
  - destruct w.
    + try rewrite String.eqb_refl. destruct Hin as [Heq|Hin].
      * inversion Heq; subst. discriminate.
      * exact (IH _ true n e (eq_refl : hard_docs (emit _ (set_free _ (set_hard (Some (EDir true L)) s))) = _) Hin Hr).
    + eauto.
  - eauto.
Qed.

Lemma reset_absent (s : fs) : hard_docs s = None -> reset s = (s, Ok tt).
Proof. intros Hh. unfold reset, bind, path_exists. rewrite Hh. reflexivity. Qed.

Lemma reset_dir_ok (s : fs) (ch : list (string * entry)) :
  hard_docs s = Some (EDir true ch) ->
  forallb (fun p => is_file (snd p)) ch = true ->
  cwd_writable s = true ->
  reset s = (mkfs None (docs_txt s) (cwd_writable s) (free s + size_sum ch)
                  (log s ++ remove_events ch ++ [ERmdir]), Ok tt).
Proof.
  intros Hh Hf Hc. unfold reset, bind at 1, path_exists. rewrite Hh.
  unfold bind at 1, listdir. rewrite Hh. unfold bind.
  rewrite (remove_all_files ch s Hh Hf). unfold os_rmdir. simpl. rewrite Hc. simpl.
  unfold emit, set_hard; simpl. rewrite <- app_assoc. reflexivity.
Qed.

Lemma reset_dir_ok_inv (s s' : fs) (w : bool) (ch : list (string * entry)) :
  hard_docs s = Some (EDir w ch) ->
  reset s = (s', Ok tt) ->
  s' = mkfs None (docs_txt s) (cwd_writable s) (free s + size_sum ch)
            (log s ++ remove_events ch ++ [ERmdir]).
Proof.
  intros Hh Hrun. unfold reset, bind at 1, path_exists in Hrun. rewrite Hh in Hrun.
  unfold bind at 1, listdir in Hrun. rewrite Hh in Hrun. unfold bind in Hrun.
  destruct (remove_all (map fst ch) s) as [s1 [[]|e]] eqn:E; [|discriminate].
  destruct (remove_all_ok_inv ch s w s1 Hh E) as [_ ->].
  unfold os_rmdir in Hrun. simpl in Hrun.
  destruct (cwd_writable s); simpl in Hrun; [|discriminate].
  inversion Hrun; subst. unfold emit, set_hard. simpl. rewrite <- app_assoc. reflexivity.
Qed.

Lemma reset_stuck (s : fs) (w : bool) (ch : list (string * entry)) (n : string) (e : entry) :
  hard_docs s = Some (EDir w ch) ->
  In (n, e) ch -> removable w e = false ->
  exists s' err, reset s = (s', Err err).
Proof.
  intros Hh Hin Hr. unfold reset, bind at 1, path_exists. rewrite Hh.
  unfold bind at 1, listdir. rewrite Hh. unfold bind at 1.
  destruct (remove_all_stuck ch s w n e Hh Hin Hr) as (s' & err & ->). eauto.
Qed.

(** ** Frame lemmas *)

Ltac frame_prim :=
  intros s s' r H;
  repeat match type of H with context [match ?x with _ => _ end] => destruct x eqn:? end;
  inversion H; subst; simpl;
  (refine (conj _ (conj _ _));
   [ congruence | congruence
   | first [ exists []; rewrite app_nil_r; split; reflexivity
           | eexists; split; reflexivity ] ]).

Lemma frame_bind {A B} (m : M A) (k : A -> M B) :
  frame m -> (forall a, frame (k a)) -> frame (bind m k).
Proof.
  intros Hm Hk s s' r H. apply bind_inv in H as [(s1 & a & H1 & H2) | (e & H1 & ->)].
  - destruct (Hm _ _ _ H1) as (D1 & W1 & evs1 & L1 & P1).
    destruct (Hk a _ _ _ H2) as (D2 & W2 & evs2 & L2 & P2).
    split; [congruence|]. split; [congruence|]. exists (evs1 ++ evs2).
    rewrite L2, L1, app_assoc. split; [reflexivity|]. rewrite forallb_app, P1, P2. reflexivity.
  - exact (Hm _ _ _ H1).
Qed.

Lemma frame_ret {A} (a : A) : frame (ret a).
Proof. unfold ret. frame_prim. Qed.

Lemma frame_path_exists : frame path_exists.
Proof. unfold path_exists. frame_prim. Qed.

Lemma frame_listdir : frame listdir.
Proof. unfold listdir. frame_prim. Qed.

Lemma frame_os_remove (n : string) : frame (os_remove n).
Proof. unfold os_remove. frame_prim. Qed.

Lemma frame_os_rmdir : frame os_rmdir.
Proof. unfold os_rmdir. frame_prim. Qed.

Lemma frame_os_mkdir : frame os_mkdir.
Proof. unfold os_mkdir. frame_prim. Qed.

Lemma frame_read_docs : frame read_docs.
Proof. unfold read_docs. frame_prim. Qed.

Lemma frame_open_w (n : string) : frame (open_w n).
Proof. unfold open_w. frame_prim. Qed.

Lemma frame_write_close (n c : string) : frame (write_close n c).
Proof. unfold write_close. frame_prim. Qed.

Lemma frame_remove_all (l : list string) : frame (remove_all l).
Proof.
  induction l as [|n l IH]; simpl; [apply frame_ret|].
  apply frame_bind; [apply frame_os_remove | intros _; exact IH].
Qed.

Lemma frame_reset : frame reset.
Proof.
  unfold reset. apply frame_bind; [apply frame_path_exists|]. intros [|].
  - apply frame_bind; [apply frame_listdir|]. intros l.
    apply frame_bind; [apply frame_remove_all | intros _; apply frame_os_rmdir].
  - apply frame_ret.
Qed.

Lemma frame_gen_loop (C : string) (l : list nat) : frame (gen_loop C l).
Proof.
  induction l as [|i l IH]; simpl; [apply frame_ret|].
  apply frame_bind; [apply frame_open_w|]. intros _.
  apply frame_bind; [apply frame_write_close | intros _; exact IH].
Qed.

(** ** Runs of the script *)

Lemma os_mkdir_ok (s s' : fs) :
  os_mkdir s = (s', Ok tt) ->
  hard_docs s = None /\ cwd_writable s = true /\ s' = emit EMkdir (set_hard (Some (EDir true [])) s).
Proof.
  unfold os_mkdir. destruct (hard_docs s); [discriminate|].
  destruct (cwd_writable s) eqn:Hc; [|discriminate]. intros H. inversion H. auto.
Qed.

Lemma read_docs_ok (s s' : fs) (c : string) :
  read_docs s = (s', Ok c) ->
  exists C, docs_txt s = Some (EFile C) /\ c = universal_newlines C /\ s' = emit (ERead c) s.
Proof.
  unfold read_docs. destruct (docs_txt s) as [[C|]|]; try discriminate.
  intros H. inversion H. eauto.
Qed.

Lemma main_unfold :
  main = (reset ;;; os_mkdir ;;; docs_content <- read_docs ;;
          gen_loop docs_content (seq 0 count) ;;; print success_message).
Proof. reflexivity. Qed.

(** A successful run, step by step. *)
Lemma main_ok (s s' : fs) :
  main s = (s', Ok tt) ->
  exists C evs F,
    docs_txt s = Some (EFile C) /\ cwd_writable s = true /\
    forallb (fun ev => negb (is_print ev)) evs = true /\
    bytes (universal_newlines C) (seq 0 count) <= F /\
    s' = mkfs (Some (EDir true (files (universal_newlines C) (seq 0 count))))
              (docs_txt s) true (F - bytes (universal_newlines C) (seq 0 count))
              (log s ++ evs ++ [EMkdir; ERead (universal_newlines C)] ++
               gen_events (universal_newlines C) (seq 0 count) ++ [EPrint success_message]).
Proof.
  rewrite main_unfold. intros H.
  apply bind_inv in H as [(s1 & [] & H1 & H) | (e & _ & H)]; [|discriminate].
  destruct (frame_reset _ _ _ H1) as (D1 & W1 & evs & L1 & P1).
  apply bind_inv in H as [(s2 & [] & H2 & H) | (e & _ & H)]; [|discriminate].
  apply os_mkdir_ok in H2 as (_ & W2 & ->).
  apply bind_inv in H as [(s3 & c & H3 & H) | (e & _ & H)]; [|discriminate].
  apply read_docs_ok in H3 as (C & D3 & -> & ->). simpl in D3.
  apply bind_inv in H as [(s4 & [] & H4 & H) | (e & _ & H)]; [|discriminate].
  eapply gen_loop_cases in H4; [|reflexivity|exact names_nodup].
  destruct H4 as [(_ & Hb & ->) | (l1 & k & l2 & _ & Hr & _)]; [|discriminate].
  unfold print in H. inversion H; subst. simpl in *.
  exists C, evs, (free s1). rewrite D1 in D3.
  split; [exact D3|]. split; [congruence|]. split; [exact P1|]. split; [exact Hb|].
  unfold emit; simpl. rewrite W2, L1, D1, D3. rewrite <- !app_assoc. reflexivity.
Qed.

Lemma quiet_err_bind {A B} (m : M A) (k : A -> M B) s s' e :
  frame m ->
  (forall a s1 s2 e', k a s1 = (s2, Err e') ->
     exists evs, log s2 = log s1 ++ evs /\ forallb (fun ev => negb (is_print ev)) evs = true) ->
  bind m k s = (s', Err e) ->
  exists evs, log s' = log s ++ evs /\ forallb (fun ev => negb (is_print ev)) evs = true.
Proof.
  intros Hm Hk H. apply bind_inv in H as [(s1 & a & H1 & H2) | (e' & H1 & _)].
  - destruct (Hm _ _ _ H1) as (_ & _ & evs1 & L1 & P1).
    destruct (Hk _ _ _ _ H2) as (evs2 & L2 & P2). exists (evs1 ++ evs2).
    rewrite L2, L1, app_assoc, forallb_app, P1, P2. split; reflexivity.
  - destruct (Hm _ _ _ H1) as (_ & _ & evs & L & P). eauto.
Qed.

(** A failed run prints nothing. *)
Lemma main_err_quiet (s s' : fs) (e : error) :
  main s = (s', Err e) ->
  exists evs, log s' = log s ++ evs /\ forallb (fun ev => negb (is_print ev)) evs = true.
Proof.
  rewrite main_unfold. apply quiet_err_bind; [apply frame_reset|]. intros _ s1 s2 e1.
  apply quiet_err_bind; [apply frame_os_mkdir|]. intros _ s3 s4 e2.
  apply quiet_err_bind; [apply frame_read_docs|]. intros c s5 s6 e3.
  apply quiet_err_bind; [apply frame_gen_loop|]. intros _ s7 s8 e4.
  unfold print. discriminate.
Qed.

(** ** Consequences used by the claims *)

Lemma bytes_app (C : string) (l1 l2 : list nat) :
  bytes C (l1 ++ l2) = bytes C l1 + bytes C l2.
Proof. induction l1 as [|i l1 IH]; simpl; [reflexivity|]. rewrite IH. lia. Qed.

Lemma size_sum_files (C : string) (l : list nat) : size_sum (files C l) = bytes C l.
Proof. induction l as [|i l IH]; simpl; [reflexivity|]. rewrite IH. reflexivity. Qed.

Lemma files_are_files (C : string) (l : list nat) :
  forallb (fun p => is_file (snd p)) (files C l) = true.
Proof. induction l as [|i l IH]; simpl; [reflexivity|]. exact IH. Qed.

Lemma lookup_files (C : string) (l : list nat) (i : nat) :
  NoDup (map file_name l) -> In i l ->
  lookup (file_name i) (files C l) = Some (EFile (file_content i C)).
Proof.
  induction l as [|j l IH]; simpl; intros Hnd Hin; [contradiction|].
  inversion Hnd as [|x y Hnotin Hnd']; subst.
  destruct Hin as [->|Hin]; [rewrite String.eqb_refl; reflexivity|].
  destruct (String.eqb_spec (file_name i) (file_name j)) as [Heq|_].
  - exfalso. apply Hnotin. rewrite <- Heq. apply in_map. exact Hin.
  - apply IH; assumption.
Qed.

Lemma names_nodup_upto (k : nat) : k <= count -> NoDup (map file_name (seq 0 k)).
Proof.
  intros Hk. pose proof names_nodup as H.
  replace count with (k + (count - k)) in H by lia.
  rewrite seq_app, map_app in H. exact (NoDup_app_remove_r _ _ H).
Qed.

(** The generation loop writes every file when the disk has room. *)
Lemma gen_loop_fits (C : string) (l : list nat) (pre : list (string * entry)) (s : fs) :
  hard_docs s = Some (EDir true pre) ->
  NoDup (map fst pre ++ map file_name l) ->
  bytes C l <= free s ->
  gen_loop C l s =
  (mkfs (Some (EDir true (pre ++ files C l))) (docs_txt s) (cwd_writable s)
        (free s - bytes C l) (log s ++ gen_events C l), Ok tt).
Proof.
  intros Hh Hnd Hb. destruct (gen_loop C l s) as [s' r] eqn:E.
  destruct (gen_loop_cases C l pre s s' r Hh Hnd E)
    as [(-> & _ & ->) | (l1 & k & l2 & -> & _ & _ & Hlt & _)]; [reflexivity|].
  rewrite bytes_app in Hb. simpl in Hb. lia.
Qed.

Lemma seq_split (l1 : list nat) :
  forall start n k l2, seq start n = l1 ++ k :: l2 ->
  l1 = seq start (length l1) /\ k = start + length l1 /\ length l1 < n.
Proof.
  induction l1 as [|x l1 IH]; intros start [|n] k l2 H; simpl in *; try discriminate.
  - inversion H; subst. split; [reflexivity|]. split; lia.
  - injection H as Hx Hs. subst x.
    destruct (IH (S start) n k l2 Hs) as (H1 & H2 & H3).
    rewrite <- H1. split; [reflexivity|]. split; lia.
Qed.

Lemma stdout_app (s : fs) (evs : list event) (s' : fs) :
  log s' = log s ++ evs ->
  stdout s' = stdout s ++ flat_map (fun ev => match ev with EPrint l => [l] | _ => [] end) evs.
Proof. unfold stdout. intros ->. apply flat_map_app. Qed.

Lemma flat_map_quiet (evs : list event) :
  forallb (fun ev => negb (is_print ev)) evs = true ->
  flat_map (fun ev => match ev with EPrint l => [l] | _ => [] end) evs = [].
Proof.
  induction evs as [|[] evs IH]; simpl; intros H; try discriminate; try reflexivity; auto.
Qed.

Lemma gen_events_quiet (C : string) (l : list nat) :
  forallb (fun ev => negb (is_print ev)) (gen_events C l) = true.
Proof. induction l as [|i l IH]; simpl; [reflexivity|]. exact IH. Qed.

Lemma stdout_quiet (s s' : fs) (evs : list event) :
  log s' = log s ++ evs -> forallb (fun ev => negb (is_print ev)) evs = true ->
  stdout s' = stdout s.
Proof.
  intros L P. rewrite (stdout_app s evs s' L), (flat_map_quiet evs P). apply app_nil_r.
Qed.

Lemma main_ok_stdout (s s' : fs) :
  main s = (s', Ok tt) -> stdout s' = stdout s ++ [success_message].
Proof.
  intros H. destruct (main_ok s s' H) as (C & evs & F & _ & _ & P & _ & ->).
  erewrite stdout_app by reflexivity. f_equal.
  rewrite !flat_map_app, (flat_map_quiet _ P), (flat_map_quiet _ (gen_events_quiet _ _)).
  reflexivity.
Qed.

Lemma reset_ok_absent (s s' : fs) : reset s = (s', Ok tt) -> hard_docs s' = None.
Proof.
  intros H. destruct (hard_docs s) as [[d|w ch]|] eqn:Hh.
  - unfold reset in H.
    rewrite (bind_ok _ _ s s true) in H by (unfold path_exists; rewrite Hh; reflexivity).
    rewrite (bind_err _ _ s s NotADirectoryError) in H by (unfold listdir; rewrite Hh; reflexivity).
    discriminate.
  - rewrite (reset_dir_ok_inv s s' w ch Hh H). reflexivity.
  - rewrite (reset_absent s Hh) in H. inversion H; subst. exact Hh.
Qed.

(** ** Claims *)

Lemma universal_newlines_no_cr (C : string) : has_cr C = false -> universal_newlines C = C.
Proof.
  induction C as [|c r IH]; simpl; intros H; [reflexivity|].
  apply orb_false_iff in H as [H1 H2]. rewrite H1, IH by exact H2. reflexivity.
Qed.

(** C1 (as stated, refuted): with [docs.txt] holding a lone carriage
    return, the run succeeds but [0.txt] holds "0", LF, LF rather than
    "0", LF, CR: the content is not copied verbatim. *)
Lemma C1_counterexample :
  ~ (forall s s' C, docs_txt s = Some (EFile C) -> main s = (s', Ok tt) ->
     exists w ch, hard_docs s' = Some (EDir w ch) /\
       map fst ch = map file_name (seq 0 count) /\
       forall i, i < count -> lookup (file_name i) ch = Some (EFile (str i ++ String LF C))%string).
Proof.
  intros H.
  destruct (H (fs_fresh (String CR EmptyString) 2000) (fst (main (fs_fresh (String CR EmptyString) 2000)))
              (String CR EmptyString) eq_refl) as (w & ch & Hh & _ & Hl).
  - vm_compute. reflexivity.
  - vm_compute in Hh. injection Hh as <- <-.
    specialize (Hl 0 ltac:(vm_compute; lia)). vm_compute in Hl. discriminate.
Qed.

(** C1 (amended): after a successful run, [hard_docs] holds exactly the
    files 0.txt .. 50.txt (in creation order, nothing else), and [i.txt]
    holds [str(i)], a newline, then the content of [docs.txt] as Python's
    text mode reads it: each CRLF and each lone CR becomes LF; a content
    without CR is copied verbatim. *)
Theorem C1_output_files (s s' : fs) (C : string) :
  docs_txt s = Some (EFile C) ->
  main s = (s', Ok tt) ->
  exists ch, hard_docs s' = Some (EDir true ch) /\
    map fst ch = map file_name (seq 0 count) /\
    forallb (fun p => is_file (snd p)) ch = true /\
    (forall i, i < count ->
       lookup (file_name i) ch = Some (EFile (str i ++ String LF (universal_newlines C)))%string) /\
    (has_cr C = false -> universal_newlines C = C).
Proof.
  intros Hd H. destruct (main_ok s s' H) as (C' & evs & F & Hd' & _ & _ & _ & ->).
  rewrite Hd in Hd'. injection Hd' as <-.
  exists (files (universal_newlines C) (seq 0 count)). split; [reflexivity|].
  split; [apply map_fst_files|]. split; [apply files_are_files|]. split.
  - intros i Hi. apply lookup_files; [exact names_nodup|]. apply in_seq. lia.
  - apply universal_newlines_no_cr.
Qed.

Lemma C1_output_files_witness :
  exists ch, hard_docs (fst (main (fs_stale hello_world))) = Some (EDir true ch) /\
    map fst ch = map file_name (seq 0 count) /\
    forallb (fun p => is_file (snd p)) ch = true /\
    (forall i, i < count ->
       lookup (file_name i) ch = Some (EFile (str i ++ String LF (universal_newlines hello_world)))%string) /\
    (has_cr hello_world = false -> universal_newlines hello_world = hello_world).
Proof.
  apply (C1_output_files (fs_stale hello_world) (fst (main (fs_stale hello_world))) hello_world).
  - reflexivity.
  - vm_compute. reflexivity.
Defined.

(** C2: the directory reset.  When [hard_docs] is absent it changes
    nothing; when it is a directory and the reset completes, it has
    removed each listed entry in turn (no recursion), then the directory;
    and it completes when every entry is a file, the directory is writable
    and so is the working directory. *)
Theorem C2_reset_contract (s : fs) :
  (hard_docs s = None -> reset s = (s, Ok tt)) /\
  (forall w ch s', hard_docs s = Some (EDir w ch) -> reset s = (s', Ok tt) ->
     s' = mkfs None (docs_txt s) (cwd_writable s) (free s + size_sum ch)
               (log s ++ remove_events ch ++ [ERmdir])) /\
  (forall ch, hard_docs s = Some (EDir true ch) ->
     forallb (fun p => is_file (snd p)) ch = true -> cwd_writable s = true ->
     reset s = (mkfs None (docs_txt s) (cwd_writable s) (free s + size_sum ch)
                     (log s ++ remove_events ch ++ [ERmdir]), Ok tt)).
Proof.
  split; [apply reset_absent|]. split.
  - intros w ch s' Hh H. exact (reset_dir_ok_inv s s' w ch Hh H).
  - intros ch Hh Hf Hc. exact (reset_dir_ok s ch Hh Hf Hc).
Qed.

Lemma C2_reset_contract_witness :
  reset (fs_fresh "x" 10) = (fs_fresh "x" 10, Ok tt) /\
  fst (reset (fs_stale "x")) =
    mkfs None (Some (EFile "x")) true (2000 + 3) [ERemove "stale.txt"; ERmdir] /\
  reset (fs_stale "x") =
    (mkfs None (Some (EFile "x")) true (2000 + 3) [ERemove "stale.txt"; ERmdir], Ok tt).
Proof.
  split; [|split].
  - apply (proj1 (C2_reset_contract (fs_fresh "x" 10))). reflexivity.
  - apply (proj1 (proj2 (C2_reset_contract (fs_stale "x"))) true [("stale.txt", EFile "old")]);
      [reflexivity | vm_compute; reflexivity].
  - apply (proj2 (proj2 (C2_reset_contract (fs_stale "x"))) [("stale.txt", EFile "old")]);
      reflexivity.
Defined.

(** A run started with [hard_docs] a writable directory of files, a
    writable working directory and enough room, step by step. *)
Lemma main_from_files (s : fs) (ch : list (string * entry)) (C : string) :
  hard_docs s = Some (EDir true ch) ->
  forallb (fun p => is_file (snd p)) ch = true ->
  cwd_writable s = true ->
  docs_txt s = Some (EFile C) ->
  bytes (universal_newlines C) (seq 0 count) <= free s + size_sum ch ->
  main s =
  (mkfs (Some (EDir true (files (universal_newlines C) (seq 0 count)))) (docs_txt s) true
        (free s + size_sum ch - bytes (universal_newlines C) (seq 0 count))
        (log s ++ remove_events ch ++ [ERmdir] ++ [EMkdir] ++ [ERead (universal_newlines C)] ++
         gen_events (universal_newlines C) (seq 0 count) ++ [EPrint success_message]), Ok tt).
Proof.
  intros Hh Hf Hc Hd Hb. rewrite main_unfold.
  rewrite (bind_ok _ _ _ _ _ (reset_dir_ok s ch Hh Hf Hc)). cbv beta.
  rewrite Hc, Hd.
  erewrite (bind_ok os_mkdir). 2: { unfold os_mkdir. cbn [hard_docs cwd_writable]. reflexivity. }
  cbv beta.
  erewrite (bind_ok read_docs). 2: { unfold read_docs. cbn [docs_txt emit set_hard]. reflexivity. }
  cbv beta.
  erewrite (bind_ok (gen_loop _ _)).
  2: { apply gen_loop_fits; [reflexivity | exact names_nodup | exact Hb]. }
  unfold print, emit, set_hard. cbn [hard_docs docs_txt cwd_writable free log].
  rewrite <- !app_assoc. reflexivity.
Qed.

(** C3: a second run right after a successful one succeeds too and leaves
    [hard_docs] exactly as the first left it. *)
Theorem C3_idempotent (s s1 : fs) :
  main s = (s1, Ok tt) ->
  exists s2, main s1 = (s2, Ok tt) /\ hard_docs s2 = hard_docs s1.
Proof.
  intros H. destruct (main_ok s s1 H) as (C & evs & F & Hd & Hc & _ & Hb & ->).
  eexists. split.
  - apply (main_from_files _ (files (universal_newlines C) (seq 0 count)) C);
      [reflexivity | apply files_are_files | reflexivity | exact Hd |].
    cbn [free]. rewrite size_sum_files. lia.
  - reflexivity.
Qed.

Lemma C3_idempotent_witness :
  exists s2, main (fst (main (fs_stale hello_world))) = (s2, Ok tt) /\
             hard_docs s2 = hard_docs (fst (main (fs_stale hello_world))).
Proof.
  apply (C3_idempotent (fs_stale hello_world)). vm_compute. reflexivity.
Defined.

Lemma os_mkdir_err (s s' : fs) (e : error) : os_mkdir s = (s', Err e) -> s' = s.
Proof.
  unfold os_mkdir. destruct (hard_docs s); [intros H; inversion H; reflexivity|].
  destruct (cwd_writable s); intros H; inversion H; reflexivity.
Qed.

Lemma read_docs_err (s s' : fs) (e : error) : read_docs s = (s', Err e) -> s' = s.
Proof.
  unfold read_docs. destruct (docs_txt s) as [[]|]; intros H; inversion H; reflexivity.
Qed.

(** C4 (as stated, refuted): [docs.txt] is missing and [hard_docs] holds
    a subdirectory listed first followed by a complete earlier output.
    The run fails (at the reset, on the subdirectory), prints nothing, and
    leaves [hard_docs] with a complete set of 51 files. *)
Lemma C4_counterexample :
  docs_txt fs_subdir_complete = None /\
  snd (main fs_subdir_complete) = Err IsADirectoryError /\
  stdout (fst (main fs_subdir_complete)) = [] /\
  complete_set (hard_docs (fst (main fs_subdir_complete))) = true.
Proof. repeat split; vm_compute; reflexivity. Qed.

(** C4 (amended): when [docs.txt] is missing the run fails and prints
    nothing; [hard_docs] is then absent (the directory could not be
    created) or empty, unless the reset itself failed first, in which case
    it is left as that failed reset left it. *)
Theorem C4_missing_docs (s s' : fs) (r : result unit) :
  docs_txt s = None ->
  main s = (s', r) ->
  (exists e, r = Err e) /\ stdout s' = stdout s /\
  (hard_docs s' = None \/ hard_docs s' = Some (EDir true []) \/
   exists e, reset s = (s', Err e)).
Proof.
  intros Hd H. rewrite main_unfold in H.
  apply bind_inv in H as [(s1 & [] & H1 & H) | (e & H1 & ->)].
  2: { destruct (frame_reset _ _ _ H1) as (_ & _ & evs & L & P).
       split; [eauto|]. split; [exact (stdout_quiet _ _ _ L P)|]. right. right. eauto. }
  destruct (frame_reset _ _ _ H1) as (D1 & _ & evs1 & L1 & P1).
  pose proof (reset_ok_absent _ _ H1) as A1.
  apply bind_inv in H as [(s2 & [] & H2 & H) | (e & H2 & ->)].
  2: { apply os_mkdir_err in H2. subst s'.
       split; [eauto|]. split; [exact (stdout_quiet _ _ _ L1 P1)|]. left. exact A1. }
  apply os_mkdir_ok in H2 as (_ & _ & ->).
  apply bind_inv in H as [(s3 & c & H3 & H) | (e & H3 & ->)].
  - apply read_docs_ok in H3 as (C & D & _). cbn in D. congruence.
  - apply read_docs_err in H3. subst s'. split; [eauto|]. split.
    + apply (stdout_quiet s _ (evs1 ++ [EMkdir])); [|rewrite forallb_app, P1; reflexivity].
      cbn. rewrite L1, app_assoc. reflexivity.
    + right. left. reflexivity.
Qed.

Lemma C4_missing_docs_witness :
  (exists e, snd (main fs_no_docs) = Err e) /\
  stdout (fst (main fs_no_docs)) = stdout fs_no_docs /\
  (hard_docs (fst (main fs_no_docs)) = None \/
   hard_docs (fst (main fs_no_docs)) = Some (EDir true []) \/
   exists e, reset fs_no_docs = (fst (main fs_no_docs), Err e)).
Proof.
  apply (C4_missing_docs fs_no_docs (fst (main fs_no_docs)) (snd (main fs_no_docs))).
  - reflexivity.
  - vm_compute. reflexivity.
Defined.

(** C5: when some entry of [hard_docs] cannot be removed by [os.remove]
    (a subdirectory, or any entry of a read-only directory), the reset
    fails, the error ends the run there, and nothing is printed. *)
Theorem C5_unremovable_entry (s : fs) (w : bool) (ch : list (string * entry))
    (n : string) (e : entry) :
  hard_docs s = Some (EDir w ch) ->
  In (n, e) ch ->
  removable w e = false ->
  exists s' err, reset s = (s', Err err) /\ main s = (s', Err err) /\ stdout s' = stdout s.
Proof.
  intros Hh Hin Hr. destruct (reset_stuck s w ch n e Hh Hin Hr) as (s' & err & R).
  assert (Hm : main s = (s', Err err)) by (rewrite main_unfold; exact (bind_err _ _ _ _ _ R)).
  exists s', err. split; [exact R|]. split; [exact Hm|].
  destruct (main_err_quiet _ _ _ Hm) as (evs & L & P). exact (stdout_quiet _ _ _ L P).
Qed.

Lemma C5_unremovable_entry_witness :
  exists s' err, reset (fs_subdir (Some (EFile "x"))) = (s', Err err) /\
    main (fs_subdir (Some (EFile "x"))) = (s', Err err) /\
    stdout s' = stdout (fs_subdir (Some (EFile "x"))).
Proof.
  apply (C5_unremovable_entry (fs_subdir (Some (EFile "x"))) true
           [("stale.txt", EFile "old"); ("sub", EDir true [])] "sub" (EDir true [])).
  - reflexivity.
  - simpl. right. left. reflexivity.
  - reflexivity.
Defined.

(** C6: with [docs.txt] holding "Hello", LF, "World", a successful run
    leaves [7.txt] holding exactly "7", LF, "Hello", LF, "World", and the
    last printed line is the success message. *)
Theorem C6_hello_world (s s' : fs) :
  docs_txt s = Some (EFile ("Hello" ++ String LF "World")%string) ->
  main s = (s', Ok tt) ->
  exists ch, hard_docs s' = Some (EDir true ch) /\
    lookup "7.txt" ch = Some (EFile ("7" ++ String LF ("Hello" ++ String LF "World"))%string) /\
    exists pre, stdout s' = pre ++ [success_message].
Proof.
  intros Hd H. pose proof (main_ok_stdout s s' H) as Ho.
  destruct (main_ok s s' H) as (C & evs & F & Hd' & _ & _ & _ & ->).
  rewrite Hd in Hd'. injection Hd' as <-.
  eexists. split; [reflexivity|]. split.
  - vm_compute. reflexivity.
  - eexists. exact Ho.
Qed.

Lemma C6_hello_world_witness :
  exists ch, hard_docs (fst (main (fs_stale hello_world))) = Some (EDir true ch) /\
    lookup "7.txt" ch = Some (EFile ("7" ++ String LF ("Hello" ++ String LF "World"))%string) /\
    exists pre, stdout (fst (main (fs_stale hello_world))) = pre ++ [success_message].
Proof.
  apply (C6_hello_world (fs_stale hello_world)).
  - reflexivity.
  - vm_compute. reflexivity.
Defined.

(** C7: a successful run's log ends with the 51 writes of the generation
    loop, in order, followed by one print of the success message, and no
    print occurs before it; the run prints exactly that one line.  A
    failed run prints nothing. *)
Theorem C7_message_after_writes (s s' : fs) (r : result unit) :
  main s = (s', r) ->
  (r = Ok tt ->
   exists C evs,
     log s' = log s ++ evs ++ gen_events C (seq 0 count) ++ [EPrint success_message] /\
     forallb (fun ev => negb (is_print ev)) (evs ++ gen_events C (seq 0 count)) = true /\
     stdout s' = stdout s ++ [success_message]) /\
  (forall e, r = Err e -> stdout s' = stdout s).
Proof.
  intros H. split.
  - intros ->. pose proof (main_ok_stdout s s' H) as Ho.
    destruct (main_ok s s' H) as (C & evs & F & _ & _ & P & _ & ->).
    exists (universal_newlines C), (evs ++ [EMkdir; ERead (universal_newlines C)]).
    split; [cbn [log]; rewrite <- !app_assoc; reflexivity|]. split; [|exact Ho].
    rewrite !forallb_app, P, gen_events_quiet. reflexivity.
  - intros e ->. destruct (main_err_quiet _ _ _ H) as (evs & L & P).
    exact (stdout_quiet _ _ _ L P).
Qed.

Lemma C7_message_after_writes_witness :
  (snd (main (fs_stale hello_world)) = Ok tt ->
   exists C evs,
     log (fst (main (fs_stale hello_world))) =
       log (fs_stale hello_world) ++ evs ++ gen_events C (seq 0 count) ++ [EPrint success_message] /\
     forallb (fun ev => negb (is_print ev)) (evs ++ gen_events C (seq 0 count)) = true /\
     stdout (fst (main (fs_stale hello_world))) = stdout (fs_stale hello_world) ++ [success_message]) /\
  (forall e, snd (main (fs_stale hello_world)) = Err e ->
     stdout (fst (main (fs_stale hello_world))) = stdout (fs_stale hello_world)).
Proof.
  apply (C7_message_after_writes (fs_stale hello_world)). apply surjective_pairing.
Defined.

(** C8 (as stated, refuted): two processes with the same [docs.txt]
    content end differently when one starts without [hard_docs] and the
    other with a [hard_docs] holding a subdirectory. *)
Lemma C8_counterexample :
  ~ (forall p1 p2 C,
       docs_txt (fs_of p1) = Some (EFile C) -> docs_txt (fs_of p2) = Some (EFile C) ->
       hard_docs (fst (run p1)) = hard_docs (fst (run p2)) /\
       stdout (fst (run p1)) = stdout (fst (run p2))).
Proof.
  intros H.
  destruct (H (mkprocess [] [] (fs_fresh "x" 2000)) (mkprocess [] [] (fs_subdir (Some (EFile "x"))))
              "x" eq_refl eq_refl) as [_ Ho].
  vm_compute in Ho. discriminate.
Qed.

(** C8 (amended): two successful runs whose [docs.txt] have the same
    content leave the same [hard_docs] and each prints exactly the success
    line, whatever the arguments and environment of the two processes. *)
Theorem C8_success_determined (p1 p2 : process) (C : string) (s1 s2 : fs) :
  docs_txt (fs_of p1) = Some (EFile C) ->
  docs_txt (fs_of p2) = Some (EFile C) ->
  run p1 = (s1, Ok tt) ->
  run p2 = (s2, Ok tt) ->
  hard_docs s1 = hard_docs s2 /\
  stdout s1 = stdout (fs_of p1) ++ [success_message] /\
  stdout s2 = stdout (fs_of p2) ++ [success_message].
Proof.
  unfold run. intros D1 D2 H1 H2.
  pose proof (main_ok_stdout _ _ H1) as O1. pose proof (main_ok_stdout _ _ H2) as O2.
  destruct (main_ok _ _ H1) as (C1 & evs1 & F1 & E1 & _ & _ & _ & ->).
  destruct (main_ok _ _ H2) as (C2 & evs2 & F2 & E2 & _ & _ & _ & ->).
  rewrite D1 in E1. rewrite D2 in E2. injection E1 as <-. injection E2 as <-.
  split; [reflexivity|]. split; assumption.
Qed.

Lemma C8_success_determined_witness :
  hard_docs (fst (run (mkprocess ["prog"] [("HOME", "/root")] (fs_stale "x")))) =
    hard_docs (fst (run (mkprocess [] [] (fs_fresh "x" 2000)))) /\
  stdout (fst (run (mkprocess ["prog"] [("HOME", "/root")] (fs_stale "x")))) =
    stdout (fs_stale "x") ++ [success_message] /\
  stdout (fst (run (mkprocess [] [] (fs_fresh "x" 2000)))) =
    stdout (fs_fresh "x" 2000) ++ [success_message].
Proof.
  apply (C8_success_determined (mkprocess ["prog"] [("HOME", "/root")] (fs_stale "x"))
           (mkprocess [] [] (fs_fresh "x" 2000)) "x"
           (fst (run (mkprocess ["prog"] [("HOME", "/root")] (fs_stale "x"))))
           (fst (run (mkprocess [] [] (fs_fresh "x" 2000))))).
  - reflexivity.
  - reflexivity.
  - vm_compute. reflexivity.
  - vm_compute. reflexivity.
Defined.

(** C9: when the reset and the creation of [hard_docs] succeed and the
    read of [docs.txt] fails, the run ends with that error and [hard_docs]
    exists and is empty. *)
Theorem C9_read_failure_leaves_empty (s s1 s2 s3 : fs) (e : error) :
  reset s = (s1, Ok tt) ->
  os_mkdir s1 = (s2, Ok tt) ->
  read_docs s2 = (s3, Err e) ->
  main s = (s3, Err e) /\ hard_docs s3 = Some (EDir true []).
Proof.
  intros H1 H2 H3. split.
  - rewrite main_unfold, (bind_ok _ _ _ _ _ H1). cbv beta.
    rewrite (bind_ok _ _ _ _ _ H2). cbv beta. exact (bind_err _ _ _ _ _ H3).
  - apply read_docs_err in H3. apply os_mkdir_ok in H2 as (_ & _ & ->). subst s3. reflexivity.
Qed.

Lemma C9_read_failure_leaves_empty_witness :
  main fs_no_docs = (fst (read_docs (fst (os_mkdir (fst (reset fs_no_docs))))), Err FileNotFoundError) /\
  hard_docs (fst (read_docs (fst (os_mkdir (fst (reset fs_no_docs)))))) = Some (EDir true []).
Proof.
  apply (C9_read_failure_leaves_empty fs_no_docs (fst (reset fs_no_docs))
           (fst (os_mkdir (fst (reset fs_no_docs))))).
  - vm_compute. reflexivity.
  - vm_compute. reflexivity.
  - vm_compute. reflexivity.
Defined.

(** C10 (as stated, refuted): with 9 free bytes and [docs.txt] holding
    "x", the files 0.txt .. 2.txt take 3 bytes each; the write of index 3
    fails with ENOSPC and leaves 3.txt behind (empty), besides the files
    of the indices below 3. *)
Lemma C10_counterexample :
  snd (main (fs_fresh "x" 9)) = Err NoSpaceLeft /\
  hard_docs (fst (main (fs_fresh "x" 9))) =
    Some (EDir true (files "x" (seq 0 3) ++ [(file_name 3, EFile "")])).
Proof. split; vm_compute; reflexivity. Qed.

Lemma bind_ext {A B} (m : M A) (k k' : A -> M B) s :
  (forall a s1, k a s1 = k' a s1) -> bind m k s = bind m k' s.
Proof. intros Hk. unfold bind. destruct (m s) as [s1 [a|e]]; [apply Hk | reflexivity]. Qed.

Lemma gen_loop_app (C : string) (l1 l2 : list nat) (s : fs) :
  gen_loop C (l1 ++ l2) s = bind (gen_loop C l1) (fun _ => gen_loop C l2) s.
Proof.
  revert s. induction l1 as [|i l1 IH]; intros s; simpl; [reflexivity|].
  rewrite bind_assoc. apply bind_ext. intros [] s1.
  rewrite bind_assoc. apply bind_ext. intros [] s2. apply IH.
Qed.

(** C10 (amended): the loop runs the indices in increasing order, so
    after its first [k] iterations [hard_docs] holds exactly 0.txt ..
    (k-1).txt with their final content, created in that order; when a
    write fails (the disk is full) at index [k], [hard_docs] holds those
    files and also k.txt, holding a proper prefix of its content. *)
Theorem C10_generation_order (C : string) (s : fs) :
  hard_docs s = Some (EDir true []) ->
  (forall k, k <= count ->
     gen_loop C (seq 0 count) s =
     bind (gen_loop C (seq 0 k)) (fun _ => gen_loop C (seq k (count - k))) s) /\
  (forall k s', k <= count -> gen_loop C (seq 0 k) s = (s', Ok tt) ->
     hard_docs s' = Some (EDir true (files C (seq 0 k))) /\
     log s' = log s ++ gen_events C (seq 0 k)) /\
  (forall s' e, gen_loop C (seq 0 count) s = (s', Err e) ->
     exists k p, k < count /\ e = NoSpaceLeft /\
       String.prefix p (file_content k C) = true /\
       String.length p < String.length (file_content k C) /\
       hard_docs s' = Some (EDir true (files C (seq 0 k) ++ [(file_name k, EFile p)])) /\
       log s' = log s ++ gen_events C (seq 0 k) ++ [EOpenW (file_name k)]).
Proof.
  intros Hh. split; [|split].
  - intros k Hk. rewrite <- gen_loop_app, <- seq_app.
    replace (k + (count - k)) with count by lia. reflexivity.
  - intros k s' Hk H.
    destruct (gen_loop_cases C _ [] s s' _ Hh (names_nodup_upto k Hk) H)
      as [(_ & _ & ->) | (l1 & j & l2 & _ & Hr & _)]; [|discriminate].
    split; reflexivity.
  - intros s' e H.
    destruct (gen_loop_cases C _ [] s s' _ Hh names_nodup H)
      as [(Hr & _) | (l1 & k & l2 & Hl & Hr & Hb & Hlt & ->)]; [discriminate|].
    injection Hr as <-.
    destruct (seq_split l1 0 count k l2 Hl) as (E1 & Ek & Hc). simpl in Ek. subst k.
    exists (length l1), (substring 0 (free s - bytes C l1) (file_content (length l1) C)).
    split; [exact Hc|]. split; [reflexivity|]. split; [apply substring_prefix|].
    rewrite substring_length by exact Hlt. split; [exact Hlt|].
    rewrite <- E1. split; reflexivity.
Qed.

Lemma C10_generation_order_witness :
  (forall k, k <= count ->
     gen_loop "x" (seq 0 count) (fst (os_mkdir (fs_fresh "x" 9))) =
     bind (gen_loop "x" (seq 0 k)) (fun _ => gen_loop "x" (seq k (count - k)))
          (fst (os_mkdir (fs_fresh "x" 9)))) /\
  (forall k s', k <= count -> gen_loop "x" (seq 0 k) (fst (os_mkdir (fs_fresh "x" 9))) = (s', Ok tt) ->
     hard_docs s' = Some (EDir true (files "x" (seq 0 k))) /\
     log s' = log (fst (os_mkdir (fs_fresh "x" 9))) ++ gen_events "x" (seq 0 k)) /\
  (forall s' e, gen_loop "x" (seq 0 count) (fst (os_mkdir (fs_fresh "x" 9))) = (s', Err e) ->
     exists k p, k < count /\ e = NoSpaceLeft /\
       String.prefix p (file_content k "x") = true /\
       String.length p < String.length (file_content k "x") /\
       hard_docs s' = Some (EDir true (files "x" (seq 0 k) ++ [(file_name k, EFile p)])) /\
       log s' = log (fst (os_mkdir (fs_fresh "x" 9))) ++ gen_events "x" (seq 0 k) ++
                [EOpenW (file_name k)]).
Proof. apply C10_generation_order. vm_compute. reflexivity. Defined.

(** ** Further properties of the script *)

Lemma remove_all_removable (L : list (string * entry)) :
  forall s w,
  hard_docs s = Some (EDir w L) ->
  forallb (fun p => removable w (snd p)) L = true ->
  remove_all (map fst L) s =
  (mkfs (Some (EDir w [])) (docs_txt s) (cwd_writable s) (free s + size_sum L)
        (log s ++ remove_events L), Ok tt).
Proof.
  intros s w Hh Hf. destruct L as [|p L].
  - simpl. unfold ret. destruct s as [h d c f lg]; simpl in *; subst.
    rewrite Nat.add_0_r, app_nil_r. reflexivity.
  - destruct w; [|discriminate]. apply remove_all_files; [exact Hh|].
    exact Hf.
Qed.

Lemma remove_all_prefix (L1 : list (string * entry)) :
  forall rest s w,
  hard_docs s = Some (EDir w (L1 ++ rest)) ->
  forallb (fun p => removable w (snd p)) L1 = true ->
  remove_all (map fst (L1 ++ rest)) s =
  remove_all (map fst rest)
    (mkfs (Some (EDir w rest)) (docs_txt s) (cwd_writable s) (free s + size_sum L1)
          (log s ++ remove_events L1)).
Proof.
  induction L1 as [|[n e] L1 IH]; intros rest s w Hh Hf; simpl in *.
  - destruct s as [h d c f lg]; simpl in *; subst. rewrite Nat.add_0_r, app_nil_r. reflexivity.
  - apply andb_prop in Hf as [He Hf]. unfold removable in He.
    destruct w; [|discriminate]. destruct e as [dt|]; [|discriminate].
    unfold bind at 1, os_remove. rewrite Hh. simpl. rewrite String.eqb_refl.
    rewrite (IH rest _ true) by (reflexivity || exact Hf). simpl.
    rewrite <- app_assoc, Nat.add_assoc. reflexivity.
Qed.

Lemma reset_ok_cases (s s1 : fs) :
  reset s = (s1, Ok tt) ->
  reset_ok_pre s = true /\
  s1 = mkfs None (docs_txt s) (cwd_writable s) (free s + reclaimed s) (log s ++ reset_events s).
Proof.
  unfold reset_ok_pre, reclaimed, reset_events. intros H.
  destruct (hard_docs s) as [[d|w ch]|] eqn:Hh.
  - unfold reset in H.
    rewrite (bind_ok _ _ s s true) in H by (unfold path_exists; rewrite Hh; reflexivity).
    rewrite (bind_err _ _ s s NotADirectoryError) in H by (unfold listdir; rewrite Hh; reflexivity).
    discriminate.
  - unfold reset, bind at 1, path_exists in H. rewrite Hh in H.
    unfold bind at 1, listdir in H. rewrite Hh in H. unfold bind in H.
    destruct (remove_all (map fst ch) s) as [s2 [[]|e]] eqn:E; [|discriminate].
    destruct (remove_all_ok_inv ch s w s2 Hh E) as [Hf ->].
    unfold os_rmdir in H. simpl in H.
    destruct (cwd_writable s); simpl in H; [|discriminate].
    inversion H; subst. rewrite Hf. split; [reflexivity|].
    unfold emit, set_hard. simpl. rewrite <- app_assoc. reflexivity.
  - rewrite (reset_absent s Hh) in H. inversion H; subst. split; [reflexivity|].
    destruct s1 as [h d c f lg]; simpl in *; subst. rewrite Nat.add_0_r, app_nil_r. reflexivity.
Qed.

Lemma reset_of_pre (s : fs) :
  reset_ok_pre s = true ->
  reset s = (mkfs None (docs_txt s) (cwd_writable s) (free s + reclaimed s) (log s ++ reset_events s), Ok tt).
Proof.
  unfold reset_ok_pre, reclaimed, reset_events. intros H.
  destruct (hard_docs s) as [[d|w ch]|] eqn:Hh; [discriminate| |].
  - apply andb_prop in H as [Hf Hc].
    unfold reset, bind at 1, path_exists. rewrite Hh.
    unfold bind at 1, listdir. rewrite Hh. unfold bind.
    rewrite (remove_all_removable ch s w Hh Hf). unfold os_rmdir. simpl. rewrite Hc. simpl.
    unfold emit, set_hard. simpl. rewrite <- app_assoc. reflexivity.
  - rewrite (reset_absent s Hh). destruct s as [h d c f lg]; simpl in *; subst.
    rewrite Nat.add_0_r, app_nil_r. reflexivity.
Qed.

Lemma main_of_pre (s : fs) (C : string) :
  reset_ok_pre s = true -> cwd_writable s = true -> docs_txt s = Some (EFile C) ->
  bytes (universal_newlines C) (seq 0 count) <= free s + reclaimed s ->
  main s =
  (mkfs (Some (EDir true (files (universal_newlines C) (seq 0 count)))) (docs_txt s) true
        (free s + reclaimed s - bytes (universal_newlines C) (seq 0 count))
        (log s ++ reset_events s ++ [EMkdir; ERead (universal_newlines C)] ++
         gen_events (universal_newlines C) (seq 0 count) ++ [EPrint success_message]), Ok tt).
Proof.
  intros Hp Hc Hd Hb. rewrite main_unfold, (bind_ok _ _ _ _ _ (reset_of_pre s Hp)). cbv beta.
  rewrite Hc, Hd.
  erewrite (bind_ok os_mkdir). 2: { unfold os_mkdir. cbn [hard_docs cwd_writable]. reflexivity. }
  cbv beta.
  erewrite (bind_ok read_docs). 2: { unfold read_docs. cbn [docs_txt emit set_hard]. reflexivity. }
  cbv beta.
  erewrite (bind_ok (gen_loop _ _)).
  2: { apply gen_loop_fits; [reflexivity | exact names_nodup | exact Hb]. }
  unfold print, emit, set_hard. cbn [hard_docs docs_txt cwd_writable free log].
  rewrite <- !app_assoc. reflexivity.
Qed.

Lemma main_ok_pre (s s' : fs) :
  main s = (s', Ok tt) ->
  reset_ok_pre s = true /\ cwd_writable s = true /\
  exists C, docs_txt s = Some (EFile C) /\
            bytes (universal_newlines C) (seq 0 count) <= free s + reclaimed s.
Proof.
  rewrite main_unfold. intros H.
  apply bind_inv in H as [(s1 & [] & H1 & H) | (e & _ & H)]; [|discriminate].
  apply reset_ok_cases in H1 as [Hp ->].
  apply bind_inv in H as [(s2 & [] & H2 & H) | (e & _ & H)]; [|discriminate].
  apply os_mkdir_ok in H2 as (_ & Hc & ->). cbn in Hc.
  apply bind_inv in H as [(s3 & c & H3 & H) | (e & _ & H)]; [|discriminate].
  apply read_docs_ok in H3 as (C & Hd & -> & ->). cbn in Hd.
  apply bind_inv in H as [(s4 & [] & H4 & H) | (e & _ & H)]; [|discriminate].
  eapply gen_loop_cases in H4; [|reflexivity|exact names_nodup].
  destruct H4 as [(_ & Hb & _) | (l1 & k & l2 & _ & Hr & _)]; [|discriminate].
  split; [exact Hp|]. split; [exact Hc|]. exists C. split; [exact Hd|]. exact Hb.
Qed.

(** X1: the run succeeds exactly when the reset can complete ([hard_docs]
    absent, or a directory whose entries are all removable), the working
    directory is writable, [docs.txt] is a regular file, and the disk has
    room for the 51 files once the old entries are deleted. *)
Theorem main_succeeds_iff (s : fs) :
  (exists s', main s = (s', Ok tt)) <->
  reset_ok_pre s = true /\ cwd_writable s = true /\
  exists C, docs_txt s = Some (EFile C) /\
            bytes (universal_newlines C) (seq 0 count) <= free s + reclaimed s.
Proof.
  split.
  - intros [s' H]. exact (main_ok_pre s s' H).
  - intros (Hp & Hc & C & Hd & Hb). eexists. exact (main_of_pre s C Hp Hc Hd Hb).
Qed.

Lemma main_succeeds_iff_witness :
  (exists s', main (fs_stale hello_world) = (s', Ok tt)) /\
  ~ (exists s', main (fs_subdir (Some (EFile "x"))) = (s', Ok tt)).
Proof.
  split.
  - apply (main_succeeds_iff (fs_stale hello_world)).
    split; [reflexivity|]. split; [reflexivity|]. exists hello_world.
    split; [reflexivity|]. vm_compute. lia.
  - intros H. apply (main_succeeds_iff (fs_subdir (Some (EFile "x")))) in H.
    destruct H as (Hp & _). vm_compute in Hp. discriminate.
Defined.

(** X2: the state a successful run ends in: the old entries deleted in
    listing order and their bytes returned, the directory recreated, the
    51 files written in index order using exactly their bytes, then the
    success line printed. *)
Theorem main_success_state (s s' : fs) :
  main s = (s', Ok tt) ->
  exists C, docs_txt s = Some (EFile C) /\
  s' = mkfs (Some (EDir true (files (universal_newlines C) (seq 0 count)))) (docs_txt s) true
            (free s + reclaimed s - bytes (universal_newlines C) (seq 0 count))
            (log s ++ reset_events s ++ [EMkdir; ERead (universal_newlines C)] ++
             gen_events (universal_newlines C) (seq 0 count) ++ [EPrint success_message]).
Proof.
  intros H. destruct (main_ok_pre s s' H) as (Hp & Hc & C & Hd & Hb).
  exists C. split; [exact Hd|]. rewrite (main_of_pre s C Hp Hc Hd Hb) in H.
  injection H as <-. reflexivity.
Qed.

Lemma main_success_state_witness :
  exists C, docs_txt (fs_stale hello_world) = Some (EFile C) /\
  fst (main (fs_stale hello_world)) =
    mkfs (Some (EDir true (files (universal_newlines C) (seq 0 count)))) (docs_txt (fs_stale hello_world)) true
         (free (fs_stale hello_world) + reclaimed (fs_stale hello_world) - bytes (universal_newlines C) (seq 0 count))
         (log (fs_stale hello_world) ++ reset_events (fs_stale hello_world) ++
          [EMkdir; ERead (universal_newlines C)] ++
          gen_events (universal_newlines C) (seq 0 count) ++ [EPrint success_message]).
Proof.
  apply (main_success_state (fs_stale hello_world)). vm_compute. reflexivity.
Defined.

Lemma keeps_of_frame {A} (m : M A) : frame m -> keeps m.
Proof. intros Hm s s' r H. destruct (Hm _ _ _ H) as (D & W & _). auto. Qed.

Lemma keeps_bind {A B} (m : M A) (k : A -> M B) :
  keeps m -> (forall a, keeps (k a)) -> keeps (bind m k).
Proof.
  intros Hm Hk s s' r H. apply bind_inv in H as [(s1 & a & H1 & H2) | (e & H1 & _)].
  - destruct (Hm _ _ _ H1), (Hk a _ _ _ H2). split; congruence.
  - exact (Hm _ _ _ H1).
Qed.

(** X3: whatever happens, success or any error, the run leaves
    [docs.txt] and the permission of the working directory as they were. *)
Theorem main_keeps_inputs (s s' : fs) (r : result unit) :
  main s = (s', r) ->
  docs_txt s' = docs_txt s /\ cwd_writable s' = cwd_writable s.
Proof.
  rewrite main_unfold. revert s s' r.
  apply keeps_bind; [apply keeps_of_frame, frame_reset|]. intros _.
  apply keeps_bind; [apply keeps_of_frame, frame_os_mkdir|]. intros _.
  apply keeps_bind; [apply keeps_of_frame, frame_read_docs|]. intros c.
  apply keeps_bind; [apply keeps_of_frame, frame_gen_loop|]. intros _.
  intros s s' r H. unfold print in H. inversion H. split; reflexivity.
Qed.

Lemma main_keeps_inputs_witness :
  docs_txt (fst (main (fs_subdir (Some (EFile "x"))))) = docs_txt (fs_subdir (Some (EFile "x"))) /\
  cwd_writable (fst (main (fs_subdir (Some (EFile "x"))))) = cwd_writable (fs_subdir (Some (EFile "x"))).
Proof.
  apply (main_keeps_inputs _ _ (snd (main (fs_subdir (Some (EFile "x")))))).
  apply surjective_pairing.
Defined.

Lemma has_cr_app (a b : string) : has_cr (a ++ b) = has_cr a || has_cr b.
Proof. induction a as [|c a IH]; simpl; [reflexivity|]. rewrite IH, orb_assoc. reflexivity. Qed.

Lemma universal_newlines_cr_free (C : string) : has_cr (universal_newlines C) = false.
Proof.
  assert (forall n C, String.length C <= n -> has_cr (universal_newlines C) = false) as H.
  { induction n as [|n IH]; intros [|c r] Hl; simpl in *; try reflexivity; try lia.
    destruct (Ascii.eqb c CR) eqn:Hc; simpl.
    - destruct r as [|c' r']; [reflexivity|].
      destruct (Ascii.eqb c' LF); apply IH; simpl in *; lia.
    - rewrite Hc. apply IH. lia. }
  apply (H (String.length C)). lia.
Qed.

Lemma lookup_in (n : string) (e : entry) (l : list (string * entry)) :
  lookup n l = Some e -> In (n, e) l.
Proof.
  induction l as [|[m e'] l IH]; simpl; [discriminate|].
  destruct (String.eqb_spec n m) as [->|_]; intros H; [inversion H; auto | auto].
Qed.

(** X4: no file a successful run writes contains a carriage return,
    whatever [docs.txt] holds: text mode turns every CR read into LF. *)
Theorem outputs_cr_free (s s' : fs) :
  main s = (s', Ok tt) ->
  exists ch, hard_docs s' = Some (EDir true ch) /\
    forall n d, lookup n ch = Some (EFile d) -> has_cr d = false.
Proof.
  intros H. destruct (main_ok s s' H) as (C & evs & F & _ & _ & _ & _ & ->).
  eexists. split; [reflexivity|]. intros n d Hl. apply lookup_in in Hl.
  unfold files in Hl. apply in_map_iff in Hl as (i & Heq & Hi). injection Heq as _ <-.
  assert (Hs : forallb (fun j => negb (has_cr (str j))) (seq 0 count) = true)
    by (vm_compute; reflexivity).
  rewrite forallb_forall in Hs. specialize (Hs i Hi). apply negb_true_iff in Hs.
  unfold file_content. rewrite has_cr_app, Hs. simpl. apply universal_newlines_cr_free.
Qed.

Lemma outputs_cr_free_witness :
  exists ch, hard_docs (fst (main (fs_fresh (String CR (String LF "a")) 2000))) = Some (EDir true ch) /\
    forall n d, lookup n ch = Some (EFile d) -> has_cr d = false.
Proof.
  apply (outputs_cr_free (fs_fresh (String CR (String LF "a")) 2000)). vm_compute. reflexivity.
Defined.

Lemma reset_unfold_dir (s : fs) (w : bool) (ch : list (string * entry)) :
  hard_docs s = Some (EDir w ch) ->
  reset s = bind (remove_all (map fst ch)) (fun _ => os_rmdir) s.
Proof.
  intros Hh. unfold reset.
  rewrite (bind_ok _ _ s s true) by (unfold path_exists; rewrite Hh; reflexivity).
  rewrite (bind_ok _ _ s s (map fst ch)) by (unfold listdir; rewrite Hh; reflexivity).
  reflexivity.
Qed.

(** X5: the cleanup loop deletes the entries in listing order and stops
    at the first one [os.remove] refuses: the entries before it are gone
    (their bytes returned), that entry and the ones after it stay, and the
    run ends with IsADirectoryError for a subdirectory, PermissionError for
    a file of a read-only directory. *)
Theorem cleanup_stops_at_unremovable (s : fs) (w : bool) (L1 L2 : list (string * entry))
    (n : string) (e : entry) :
  hard_docs s = Some (EDir w (L1 ++ (n, e) :: L2)) ->
  forallb (fun p => removable w (snd p)) L1 = true ->
  removable w e = false ->
  main s =
  (mkfs (Some (EDir w ((n, e) :: L2))) (docs_txt s) (cwd_writable s) (free s + size_sum L1)
        (log s ++ remove_events L1),
   Err (if is_file e then PermissionError else IsADirectoryError)).
Proof.
  intros Hh Hf He. rewrite main_unfold. apply bind_err.
  rewrite (reset_unfold_dir s w _ Hh). apply bind_err.
  rewrite (remove_all_prefix L1 _ s w Hh Hf). simpl map. cbn [remove_all].
  apply bind_err. unfold os_remove. cbn [hard_docs]. simpl. rewrite String.eqb_refl.
  destruct e as [d|w' ch']; simpl; [|reflexivity].
  destruct w; [discriminate|reflexivity].
Qed.

Lemma cleanup_stops_at_unremovable_witness :
  main (fs_subdir (Some (EFile "x"))) =
  (mkfs (Some (EDir true [("sub", EDir true [])])) (Some (EFile "x")) true (2000 + 3)
        [ERemove "stale.txt"], Err IsADirectoryError).
Proof.
  apply (cleanup_stops_at_unremovable (fs_subdir (Some (EFile "x"))) true
           [("stale.txt", EFile "old")] [] "sub" (EDir true [])); reflexivity.
Defined.

(** X6: when [hard_docs] is a regular file, [os.path.exists] is true and
    [os.listdir] raises NotADirectoryError: the run ends at once and
    changes nothing. *)
Theorem hard_docs_file_fails (s : fs) (d : string) :
  hard_docs s = Some (EFile d) -> main s = (s, Err NotADirectoryError).
Proof.
  intros Hh. rewrite main_unfold. apply bind_err. unfold reset.
  rewrite (bind_ok _ _ s s true) by (unfold path_exists; rewrite Hh; reflexivity).
  apply bind_err. unfold listdir. rewrite Hh. reflexivity.
Qed.

Lemma hard_docs_file_fails_witness :
  main (mkfs (Some (EFile "x")) (Some (EFile "y")) true 10 []) =
  (mkfs (Some (EFile "x")) (Some (EFile "y")) true 10 [], Err NotADirectoryError).
Proof. apply (hard_docs_file_fails _ "x"). reflexivity. Defined.

(** X7: in a read-only working directory the run always fails with
    PermissionError: with no [hard_docs] nothing changes ([os.mkdir]
    refuses); with a [hard_docs] whose entries are all removable, the
    entries are deleted but [os.rmdir] refuses, so the empty directory
    stays. *)
Theorem readonly_cwd_fails (s : fs) :
  cwd_writable s = false ->
  (hard_docs s = None -> main s = (s, Err PermissionError)) /\
  (forall w ch, hard_docs s = Some (EDir w ch) ->
     forallb (fun p => removable w (snd p)) ch = true ->
     main s = (mkfs (Some (EDir w [])) (docs_txt s) false (free s + size_sum ch)
                    (log s ++ remove_events ch), Err PermissionError)).
Proof.
  intros Hc. split.
  - intros Hh. rewrite main_unfold, (bind_ok _ _ _ _ _ (reset_absent s Hh)). cbv beta.
    apply bind_err. unfold os_mkdir. rewrite Hh, Hc. reflexivity.
  - intros w ch Hh Hf. rewrite main_unfold. apply bind_err.
    rewrite (reset_unfold_dir s w ch Hh), (bind_ok _ _ _ _ _ (remove_all_removable ch s w Hh Hf)).
    unfold os_rmdir. cbn [hard_docs cwd_writable]. rewrite Hc. reflexivity.
Qed.

Lemma readonly_cwd_fails_witness :
  main (mkfs None (Some (EFile "y")) false 10 []) =
    (mkfs None (Some (EFile "y")) false 10 [], Err PermissionError) /\
  main (mkfs (Some (EDir true [("a", EFile "zz")])) (Some (EFile "y")) false 10 []) =
    (mkfs (Some (EDir true [])) (Some (EFile "y")) false (10 + 2) [ERemove "a"], Err PermissionError).
Proof.
  split.
  - apply (proj1 (readonly_cwd_fails (mkfs None (Some (EFile "y")) false 10 []) eq_refl)).
    reflexivity.
  - apply (proj2 (readonly_cwd_fails (mkfs (Some (EDir true [("a", EFile "zz")])) (Some (EFile "y")) false 10 [])
                    eq_refl) true [("a", EFile "zz")]); reflexivity.
Defined.
